(** * Cross-platform utilities of the Agent Starter Pack CLI

    A shallow embedding of [src/cli/utils/platform_utils.py] and the
    properties its specification states about it.

    The Python module talks to four collaborators: the OS-information source
    ([platform.system]), the PATH resolver ([shutil.which]), the process
    environment ([os.environ]) and the filesystem / process spawner.  They
    are gathered in one record, [World].  Functions of the module that only
    read the world are plain functions of it; the ones that change it or can
    raise run in the small state-and-exception monad [M]. *)

From Stdlib Require Import String Ascii ZArith List Bool Lia.
From stdpp Require Import gmap strings list fin_maps.

Local Open Scope string_scope.
Local Open Scope Z_scope.

(** ** Python values the module handles *)

(** A [pathlib.Path], as its sequence of components. *)
Definition Path : Type := list string.

(** [project_path / name] for a one-component relative [name]. *)
Definition path_join (p : Path) (name : string) : Path := (p ++ [name])%list.

Infix "//" := path_join (at level 40, left associativity).

(** The exceptions that can travel through the module.  [KeyboardInterrupt]
    derives from [BaseException] only, the others from [Exception]. *)
Inductive PyExn : Type :=
  | CalledProcessError (returncode : Z) (cmd : list string)
                       (output stderr : option string)
  | OSError (strerror : string)
  | ValueError (message : string)
  | UnicodeDecodeError (reason : string)
  | KeyboardInterrupt.

Definition is_Exception (e : PyExn) : bool :=
  match e with
  | KeyboardInterrupt => false
  | _ => true
  end.

Definition is_CalledProcessError (e : PyExn) : bool :=
  match e with
  | CalledProcessError _ _ _ _ => true
  | _ => false
  end.

(** [subprocess.CompletedProcess]. *)
Record CompletedProcess : Type := mkCompletedProcess {
  cp_args : list string;
  cp_returncode : Z;
  cp_stdout : option string;
  cp_stderr : option string
}.

(** What the process-spawning provider answers for one spawn.
    [ProcessExits]: the child ran to its end with an exit code, and its two
    output streams are the UTF-8 texts [out] and [err].
    [DecodeFails]: the child ran to its end with an exit code, and what it
    wrote is not valid UTF-8, so that decoding it, which happens only to
    captured streams, stops with [reason].
    [SpawnFails]: the operating system refuses to start the child (no
    shell, no such working directory): [OSError].
    [SpawnInvalid]: the arguments cannot be handed to the operating system
    (an embedded NUL character): [ValueError]; no child is started. *)
Inductive SpawnOutcome : Type :=
  | ProcessExits (code : Z) (out err : string)
  | DecodeFails (code : Z) (reason : string)
  | SpawnFails (strerror : string)
  | SpawnInvalid (message : string).

(** How a write of one file can go wrong: [open] refuses (permissions,
    missing directory), or the file is opened, hence truncated, and the
    write stops with [partial] on disk. *)
Inductive WriteFault : Type :=
  | OpenFails (strerror : string)
  | WriteFails (strerror : string) (partial : string).

Definition fault_exn (f : WriteFault) : PyExn :=
  match f with
  | OpenFails msg => OSError msg
  | WriteFails msg _ => OSError msg
  end.

Inductive LogLevel : Type := INFO | WARNING | ERROR.

(** ** The world *)

Record World : Type := mkWorld {
  (** [platform.system()] *)
  system : string;
  (** [shutil.which] *)
  which : string -> option string;
  (** [hasattr(os, "add_dll_directory")] *)
  os_has_add_dll_directory : bool;
  (** [str(e)] of the interpreter, for an exception object *)
  exn_str : PyExn -> string;
  (** [os.environ] *)
  environ : gmap string string;
  (** the text files on disk *)
  files : gmap Path string;
  (** the faults the filesystem will answer a write of a path with *)
  fs_fault : Path -> option WriteFault;
  (** the process-spawning provider: tokens, working directory *)
  spawn : list string -> option Path -> SpawnOutcome;
  (** the token sequences spawned so far, oldest first *)
  spawned : list (list string);
  (** the calls made to the [logging] module, oldest first *)
  log : list (LogLevel * string);
  (** what a child started with these tokens in this working directory
      makes of the files on disk *)
  child_files : list string -> option Path -> gmap Path string -> gmap Path string;
  (** the paths this process handed to [open] for writing, oldest first *)
  opened : list Path
}.

Definition set_system (s : string) (w : World) : World :=
  mkWorld s (which w) (os_has_add_dll_directory w) (exn_str w) (environ w)
          (files w) (fs_fault w) (spawn w) (spawned w) (log w)
          (child_files w) (opened w).

Definition set_environ (e : gmap string string) (w : World) : World :=
  mkWorld (system w) (which w) (os_has_add_dll_directory w) (exn_str w) e
          (files w) (fs_fault w) (spawn w) (spawned w) (log w)
          (child_files w) (opened w).

Definition set_files (f : gmap Path string) (w : World) : World :=
  mkWorld (system w) (which w) (os_has_add_dll_directory w) (exn_str w)
          (environ w) f (fs_fault w) (spawn w) (spawned w) (log w)
          (child_files w) (opened w).

Definition set_spawned (l : list (list string)) (w : World) : World :=
  mkWorld (system w) (which w) (os_has_add_dll_directory w) (exn_str w)
          (environ w) (files w) (fs_fault w) (spawn w) l (log w)
          (child_files w) (opened w).

Definition set_log (l : list (LogLevel * string)) (w : World) : World :=
  mkWorld (system w) (which w) (os_has_add_dll_directory w) (exn_str w)
          (environ w) (files w) (fs_fault w) (spawn w) (spawned w) l
          (child_files w) (opened w).

Definition set_opened (l : list Path) (w : World) : World :=
  mkWorld (system w) (which w) (os_has_add_dll_directory w) (exn_str w)
          (environ w) (files w) (fs_fault w) (spawn w) (spawned w) (log w)
          (child_files w) l.

(** ** Platform detection *)

Definition platform_system (w : World) : string := system w.

Definition is_windows (w : World) : bool :=
  String.eqb (platform_system w) "Windows".

Definition is_macos (w : World) : bool :=
  String.eqb (platform_system w) "Darwin".

Definition is_linux (w : World) : bool :=
  String.eqb (platform_system w) "Linux".

Inductive PlatformIdentity : Type := Windows | MacOS | Linux | Other.

Definition PlatformIdentity_eqb (a b : PlatformIdentity) : bool :=
  match a, b with
  | Windows, Windows | MacOS, MacOS | Linux, Linux | Other, Other => true
  | _, _ => false
  end.

(** Modelled from the spec: the module has no [detect_platform]; the
    specification gives that name to the classification its three
    predicates induce, with [Other] for a name none of them accepts.  The
    cascade tests them in the order the module's own branches do. *)
Definition detect_platform (w : World) : PlatformIdentity :=
  if is_windows w then Windows
  else if is_macos w then MacOS
  else if is_linux w then Linux
  else Other.

(** Modelled from the spec: the predicate of the [Other] case, true when
    none of the module's three predicates is. *)
Definition is_other (w : World) : bool :=
  negb (is_windows w || is_macos w || is_linux w).

(** ** Command shapes *)

Definition get_shell_command (w : World) (command : string) : list string :=
  if is_windows w then ["cmd"; "/c"; command]
  else ["sh"; "-c"; command].

Definition get_npm_install_command (w : World) (frontend_dir : string) : string :=
  if is_windows w then "cd " +:+ frontend_dir +:+ " && npm install"
  else "npm --prefix " +:+ frontend_dir +:+ " install".

(** ** Tool discovery *)

Definition check_command_exists (w : World) (command : string) : bool :=
  match which w command with
  | Some _ => true
  | None => false
  end.

Definition make_commands : list string := ["make"; "gmake"; "mingw32-make"].

(** The [for cmd in make_commands] loop, over the candidates still to try. *)
Fixpoint get_make_command_loop (w : World) (cmds : list string) : option string :=
  match cmds with
  | [] => None
  | cmd :: rest =>
      if check_command_exists w cmd then Some cmd
      else get_make_command_loop w rest
  end.

Definition get_make_command (w : World) : option string :=
  get_make_command_loop w make_commands.

(** ** Installation advisory *)

Definition suggest_make_installation (w : World) : string :=
  if is_windows w then "
Make is not available. To install make on Windows, use one of these options:

1. Using Chocolatey:
   choco install make

2. Using Winget:
   winget install GnuWin32.Make

3. Using Scoop:
   scoop install make

4. Using Visual Studio Build Tools (includes nmake):
   - Install Visual Studio Build Tools
   - Use 'nmake' instead of 'make'

5. Using WSL (Windows Subsystem for Linux):
   wsl --install
   # Then use make within WSL
"
  else if is_macos w then "
Make is not available. To install make on macOS:

1. Install Xcode Command Line Tools:
   xcode-select --install

2. Using Homebrew:
   brew install make
"
  else "
Make is not available. To install make on Linux:

1. Ubuntu/Debian:
   sudo apt update && sudo apt install build-essential

2. CentOS/RHEL/Fedora:
   sudo yum install make
   # or
   sudo dnf install make

3. Arch Linux:
   sudo pacman -S make
".

(** ** The monad of effectful functions *)

Inductive Outcome (A : Type) : Type :=
  | Returned (a : A)
  | Raised (e : PyExn).

Arguments Returned {A} a.
Arguments Raised {A} e.

Definition M (A : Type) : Type := World -> Outcome A * World.

Definition ret {A : Type} (a : A) : M A := fun w => (Returned a, w).

Definition raise {A : Type} (e : PyExn) : M A := fun w => (Raised e, w).

Definition bind {A B : Type} (m : M A) (k : A -> M B) : M B :=
  fun w =>
    match m w with
    | (Returned a, w') => k a w'
    | (Raised e, w') => (Raised e, w')
    end.

Declare Scope py_scope.
Delimit Scope py_scope with py.
Bind Scope py_scope with M.

Notation "x <- m ;; k" := (bind m (fun x => k))
  (at level 100, m at next level, k at level 200, right associativity,
   only parsing) : py_scope.
Notation "m ;; k" := (bind m (fun _ => k))
  (at level 100, k at level 200, right associativity, only parsing) : py_scope.

Local Open Scope py_scope.

(** Reading the world from inside [M]. *)
Definition gets {A : Type} (f : World -> A) : M A := fun w => (Returned (f w), w).

(** [try: body / except <class> as e: handler e]; [catches] tells whether
    the exception is an instance of the class. *)
Definition try_except {A : Type} (body : M A) (catches : PyExn -> bool)
    (handler : PyExn -> M A) : M A :=
  fun w =>
    match body w with
    | (Returned a, w') => (Returned a, w')
    | (Raised e, w') => if catches e then handler e w' else (Raised e, w')
    end.

(** ** Library calls *)

Definition logging_call (lvl : LogLevel) (msg : string) : M unit :=
  fun w => (Returned tt, set_log (log w ++ [(lvl, msg)])%list w).

Definition logging_info : string -> M unit := logging_call INFO.
Definition logging_warning : string -> M unit := logging_call WARNING.
Definition logging_error : string -> M unit := logging_call ERROR.

(** [subprocess.run(args, cwd=cwd, capture_output=capture_output, text=True,
    check=check, encoding="utf-8")], in the order the library works: the
    child is started ([OSError] or [ValueError] if it cannot be); it runs to
    its end, changing the disk as it does; its streams are read and decoded
    only when captured ([UnicodeDecodeError] if they are not UTF-8), and are
    [None] otherwise; then, with [check], a non-zero exit code raises
    [CalledProcessError(returncode, args, output, stderr)]. *)
Definition subprocess_run (args : list string) (cwd : option Path)
    (capture_output check : bool) : M CompletedProcess :=
  fun w =>
    let w' := set_spawned (spawned w ++ [args])%list w in
    let ran := set_files (child_files w args cwd (files w)) w' in
    match spawn w args cwd with
    | SpawnFails msg => (Raised (OSError msg), w')
    | SpawnInvalid msg => (Raised (ValueError msg), w')
    | DecodeFails code reason =>
        if capture_output then (Raised (UnicodeDecodeError reason), ran)
        else if check && negb (code =? 0)
        then (Raised (CalledProcessError code args None None), ran)
        else (Returned (mkCompletedProcess args code None None), ran)
    | ProcessExits code out err =>
        let stdout := if capture_output then Some out else None in
        let stderr := if capture_output then Some err else None in
        if check && negb (code =? 0)
        then (Raised (CalledProcessError code args stdout stderr), ran)
        else (Returned (mkCompletedProcess args code stdout stderr), ran)
    end.

(** [os.environ.setdefault(key, value)]. *)
Definition environ_setdefault (key value : string) : M string :=
  fun w =>
    match environ w !! key with
    | Some v => (Returned v, w)
    | None => (Returned value, set_environ (<[key := value]> (environ w)) w)
    end.

(** [with open(path, "w", encoding="utf-8") as f: f.write(content)]. *)
Definition open_w_write (path : Path) (content : string) : M unit :=
  fun w =>
    let w' := set_opened (opened w ++ [path])%list w in
    match fs_fault w path with
    | None => (Returned tt, set_files (<[path := content]> (files w)) w')
    | Some (OpenFails msg) => (Raised (OSError msg), w')
    | Some (WriteFails msg partial) =>
        (Raised (OSError msg), set_files (<[path := partial]> (files w)) w')
    end.

(** ** Running a command *)

(** Python's truth value of [e.stderr]: [None] and the empty string are
    false. *)
Definition stderr_text (e : PyExn) : option string :=
  match e with
  | CalledProcessError _ _ _ (Some (String a s)) => Some (String a s)
  | _ => None
  end.

Definition run_cross_platform_command (command : string) (cwd : option Path)
    (capture_output check : bool) : M CompletedProcess :=
  shell_cmd <- gets (fun w => get_shell_command w command) ;;
  try_except
    (result <- subprocess_run shell_cmd cwd capture_output check ;;
     ret result)
    is_CalledProcessError
    (fun e =>
       logging_error ("Command failed: " +:+ command) ;;
       str_e <- gets (fun w => exn_str w e) ;;
       logging_error ("Error: " +:+ match stderr_text e with
                                         | Some s => s
                                         | None => str_e
                                         end) ;;
       raise e).

(** ** UTF-8 set-up *)

Definition ensure_utf8_encoding : M unit :=
  win <- gets is_windows ;;
  if win then
    environ_setdefault "PYTHONIOENCODING" "utf-8" ;;
    has <- gets os_has_add_dll_directory ;;
    if has then
      environ_setdefault "PYTHONUTF8" "1" ;;
      ret tt
    else ret tt
  else ret tt.

(** ** Build scripts *)

Definition dquote : string := String (ascii_of_nat 34) EmptyString.
Definition newline : string := String (ascii_of_nat 10) EmptyString.

(** [s] between two double quotes. *)
Definition quoted (s : string) : string := dquote +:+ s +:+ dquote.

(** The text whose lines are [ls], every line ended by a newline. *)
Fixpoint text_of_lines (ls : list string) : string :=
  match ls with
  | [] => EmptyString
  | l :: rest => l +:+ newline +:+ text_of_lines rest
  end.

Definition batch_content : string := text_of_lines [
  "@echo off";
  "REM Windows batch script for Agent Starter Pack";
  EmptyString;
  "set SCRIPT_DIR=%~dp0";
  "cd /d " +:+ quoted "%SCRIPT_DIR%";
  EmptyString;
  "if " +:+ quoted "%1" +:+ "==" +:+ quoted "install" +:+ " goto install";
  "if " +:+ quoted "%1" +:+ "==" +:+ quoted "playground" +:+ " goto playground";
  "if " +:+ quoted "%1" +:+ "==" +:+ quoted "test" +:+ " goto test";
  "if " +:+ quoted "%1" +:+ "==" +:+ quoted "lint" +:+ " goto lint";
  "goto help";
  EmptyString;
  ":install";
  "echo Installing dependencies...";
  "uv sync --dev --extra jupyter --extra streamlit";
  "if exist " +:+ quoted "frontend" +:+ " (";
  "    cd frontend && npm install && cd ..";
  ")";
  "goto end";
  EmptyString;
  ":playground";
  "echo Starting playground...";
  "uv run streamlit run app/main.py";
  "goto end";
  EmptyString;
  ":test";
  "echo Running tests...";
  "uv run pytest tests/";
  "goto end";
  EmptyString;
  ":lint";
  "echo Running linters...";
  "uv run ruff check .";
  "uv run mypy .";
  "goto end";
  EmptyString;
  ":help";
  "echo Available commands:";
  "echo   install    - Install dependencies";
  "echo   playground - Start the development playground";
  "echo   test       - Run tests";
  "echo   lint       - Run linters";
  "echo.";
  "echo Usage: build.bat [command]";
  "goto end";
  EmptyString;
  ":end"
].

Definition powershell_content : string := text_of_lines [
  "# PowerShell script for Agent Starter Pack";
  EmptyString;
  "param(";
  "    [Parameter(Position=0)]";
  "    [string]$Command = " +:+ quoted "help";
  ")";
  EmptyString;
  "$ScriptDir = Split-Path -Parent $MyInvocation.MyCommand.Path";
  "Set-Location $ScriptDir";
  EmptyString;
  "switch ($Command) {";
  "    " +:+ quoted "install" +:+ " {";
  "        Write-Host " +:+ quoted "Installing dependencies..." +:+ " -ForegroundColor Green";
  "        uv sync --dev --extra jupyter --extra streamlit";
  "        if (Test-Path " +:+ quoted "frontend" +:+ ") {";
  "            Set-Location frontend";
  "            npm install";
  "            Set-Location ..";
  "        }";
  "    }";
  "    " +:+ quoted "playground" +:+ " {";
  "        Write-Host " +:+ quoted "Starting playground..." +:+ " -ForegroundColor Green";
  "        uv run streamlit run app/main.py";
  "    }";
  "    " +:+ quoted "test" +:+ " {";
  "        Write-Host " +:+ quoted "Running tests..." +:+ " -ForegroundColor Green";
  "        uv run pytest tests/";
  "    }";
  "    " +:+ quoted "lint" +:+ " {";
  "        Write-Host " +:+ quoted "Running linters..." +:+ " -ForegroundColor Green";
  "        uv run ruff check .";
  "        uv run mypy .";
  "    }";
  "    default {";
  "        Write-Host " +:+ quoted "Available commands:" +:+ " -ForegroundColor Yellow";
  "        Write-Host " +:+ quoted "  install    - Install dependencies";
  "        Write-Host " +:+ quoted "  playground - Start the development playground";
  "        Write-Host " +:+ quoted "  test       - Run tests";
  "        Write-Host " +:+ quoted "  lint       - Run linters";
  "        Write-Host " +:+ quoted EmptyString;
  "        Write-Host " +:+ quoted "Usage: ./build.ps1 [command]";
  "    }";
  "}"
].

Definition create_platform_specific_scripts (project_path : Path) : M unit :=
  try_except
    (let batch_file := project_path // "build.bat" in
     open_w_write batch_file batch_content ;;
     let ps_file := project_path // "build.ps1" in
     open_w_write ps_file powershell_content ;;
     logging_info "Created platform-specific build scripts")
    is_Exception
    (fun e =>
       str_e <- gets (fun w => exn_str w e) ;;
       logging_warning ("Failed to create platform-specific scripts: " +:+ str_e)).

(** ** The uv tool *)

Definition get_uv_command (w : World) : option string := which w "uv".

Definition suggest_uv_installation (w : World) : string :=
  if is_windows w then
    newline +:+ text_of_lines [
      "uv is not available. To install uv on Windows:";
      EmptyString;
      "1. Using PowerShell:";
      "   powershell -ExecutionPolicy ByPass -c " +:+ quoted "irm https://astral.sh/uv/install.ps1 | iex";
      EmptyString;
      "2. Using pip:";
      "   pip install uv";
      EmptyString;
      "3. Using Scoop:";
      "   scoop install uv";
      EmptyString;
      "4. Using Chocolatey:";
      "   choco install uv"
    ]
  else
    newline +:+ text_of_lines [
      "uv is not available. To install uv:";
      EmptyString;
      "1. Using the install script:";
      "   curl -LsSf https://astral.sh/uv/install.sh | sh";
      EmptyString;
      "2. Using pip:";
      "   pip install uv";
      EmptyString;
      "3. Using Homebrew (macOS):";
      "   brew install uv";
      EmptyString;
      "4. Using your package manager (Linux):";
      "   # Check your distribution's package repository"
    ].

(** ** Vocabulary of the properties *)

(** The value a call returns and the world it leaves. *)
Definition outcome_of {A : Type} (m : M A) (w : World) : Outcome A := fst (m w).
Definition world_after {A : Type} (m : M A) (w : World) : World := snd (m w).

(** The number of [true] in a list of booleans. *)
Fixpoint count_true (bs : list bool) : nat :=
  match bs with
  | [] => 0%nat
  | b :: rest => ((if b then 1 else 0) + count_true rest)%nat
  end.

(** Python's [needle in hay] on strings: [needle] occurs as a substring. *)
Fixpoint str_contains (needle hay : string) : bool :=
  String.prefix needle hay ||
  match hay with
  | EmptyString => false
  | String _ rest => str_contains needle rest
  end.

(** The fault that stops [create_platform_specific_scripts], if any: the one
    of the first of its two writes that the filesystem refuses. *)
Definition first_write_fault (w : World) (project_path : Path) : option WriteFault :=
  match fs_fault w (project_path // "build.bat") with
  | Some f => Some f
  | None => fs_fault w (project_path // "build.ps1")
  end.

(** The environment [os.environ.setdefault(key, value)] leaves. *)
Definition setdefault_env (key value : string) (env : gmap string string)
    : gmap string string :=
  match env !! key with
  | Some _ => env
  | None => <[key := value]> env
  end.

(** The environment [ensure_utf8_encoding] leaves. *)
Definition utf8_env (w : World) : gmap string string :=
  if is_windows w then
    let env1 := setdefault_env "PYTHONIOENCODING" "utf-8" (environ w) in
    if os_has_add_dll_directory w
    then setdefault_env "PYTHONUTF8" "1" env1
    else env1
  else environ w.

(** Splits a conjunction into its parts, leaving implications alone. *)
Ltac split_conj := repeat match goal with |- _ /\ _ => split end.

(** The world a faulty write of [path] leaves. *)
Definition after_fault (path : Path) (f : WriteFault) (w : World) : World :=
  match f with
  | OpenFails _ => w
  | WriteFails _ partial => set_files (<[path := partial]> (files w)) w
  end.

(** A plain machine: OS name [sys], only [gmake] on the PATH, an empty
    environment and disk, a filesystem without faults, and a spawner whose
    children all exit with code [code] and the given standard error. *)
Definition machine (sys : string) (code : Z) (err : string) : World :=
  mkWorld sys
          (fun c => if String.eqb c "gmake" then Some "/usr/bin/gmake" else None)
          true
          (fun _ => "exception")
          ∅ ∅
          (fun _ => None)
          (fun _ _ => ProcessExits code "out" err)
          [] []
          (fun _ _ fs => fs) [].

(** A machine whose disk is read-only: every [open] for writing fails. *)
Definition read_only_machine (sys : string) : World :=
  mkWorld sys (fun _ => None) false (fun _ => "exception") ∅ ∅
          (fun _ => Some (OpenFails "Permission denied"))
          (fun _ _ => SpawnFails "No such file or directory")
          [] []
          (fun _ _ fs => fs) [].

(** A machine on which build.bat can be written and build.ps1 cannot: the
    write of the second script stops with [partial] on disk. *)
Definition half_writable_machine (sys : string) (partial : string) : World :=
  mkWorld sys (fun _ => None) false (fun _ => "exception") ∅ ∅
          (fun p => if decide (last p = Some "build.ps1")
                    then Some (WriteFails "No space left on device" partial)
                    else None)
          (fun _ _ => SpawnFails "No such file or directory")
          [] []
          (fun _ _ fs => fs) [].

(** The machine [w] with [name] resolved to [path] on the PATH as well. *)
Definition with_tool (name path : string) (w : World) : World :=
  mkWorld (system w)
          (fun c => if String.eqb c name then Some path else which w c)
          (os_has_add_dll_directory w) (exn_str w) (environ w)
          (files w) (fs_fault w) (spawn w) (spawned w) (log w)
          (child_files w) (opened w).


(** The exit code of the child, when one ran to its end. *)
Definition child_exit_code (o : SpawnOutcome) : option Z :=
  match o with
  | ProcessExits code _ _ => Some code
  | DecodeFails code _ => Some code
  | SpawnFails _ => None
  | SpawnInvalid _ => None
  end.





(** One call after another, whatever the first returns. *)
Definition and_then {A B : Type} (m : M A) (k : M B) : M B := m ;; k.

(** * Properties *)

(** ** Platform detection *)

Lemma is_windows_true (w : World) : is_windows w = true <-> system w = "Windows".
Proof. unfold is_windows, platform_system. apply String.eqb_eq. Qed.

Lemma is_macos_true (w : World) : is_macos w = true <-> system w = "Darwin".
Proof. unfold is_macos, platform_system. apply String.eqb_eq. Qed.

Lemma is_linux_true (w : World) : is_linux w = true <-> system w = "Linux".
Proof. unfold is_linux, platform_system. apply String.eqb_eq. Qed.

(** The three OS names the module tests for are pairwise distinct, so at
    most one of its predicates holds. *)
Lemma predicates_exclusive (w : World) :
  (is_windows w = true -> is_macos w = false /\ is_linux w = false) /\
  (is_macos w = true -> is_windows w = false /\ is_linux w = false) /\
  (is_linux w = true -> is_windows w = false /\ is_macos w = false).
Proof.
  unfold is_windows, is_macos, is_linux, platform_system.
  split; [| split]; intros H; apply String.eqb_eq in H; rewrite H;
    split; reflexivity.
Qed.

Lemma detect_platform_Windows (w : World) :
  detect_platform w = Windows <-> is_windows w = true.
Proof.
  unfold detect_platform.
  destruct (is_windows w), (is_macos w), (is_linux w); split; congruence.
Qed.

(** C1. Whatever OS name the OS-information source reports, exactly one of
    the four platform predicates (Windows, macOS, Linux, and the remaining
    Other case) is true, and it is the one of the variant [detect_platform]
    classifies the name into. *)
Theorem detect_platform_exactly_one (w : World) :
  count_true [is_windows w; is_macos w; is_linux w; is_other w] = 1%nat /\
  is_windows w = PlatformIdentity_eqb (detect_platform w) Windows /\
  is_macos w = PlatformIdentity_eqb (detect_platform w) MacOS /\
  is_linux w = PlatformIdentity_eqb (detect_platform w) Linux /\
  is_other w = PlatformIdentity_eqb (detect_platform w) Other.
Proof.
  destruct (predicates_exclusive w) as (Hw & Hm & Hl).
  unfold detect_platform, is_other.
  destruct (is_windows w) eqn:Ew.
  - destruct (Hw eq_refl) as [-> ->]. repeat split.
  - destruct (is_macos w) eqn:Em.
    + destruct (Hm eq_refl) as [_ ->]. repeat split.
    + destruct (is_linux w); repeat split.
Qed.

(** ** Command shapes *)

(** C3. The shell invocation of a command [c] is [cmd /c c] when the
    platform identity is Windows and [sh -c c] on every other identity; its
    third token is [c] itself, unchanged. *)
Theorem get_shell_command_shape (w : World) (c : string) :
  (detect_platform w = Windows -> get_shell_command w c = ["cmd"; "/c"; c]) /\
  (detect_platform w <> Windows -> get_shell_command w c = ["sh"; "-c"; c]) /\
  get_shell_command w c !! 2%nat = Some c /\
  length (get_shell_command w c) = 3%nat.
Proof.
  rewrite detect_platform_Windows. unfold get_shell_command.
  destruct (is_windows w); repeat split; congruence.
Qed.

Lemma get_shell_command_shape_witness :
  get_shell_command (machine "Windows" 0 "err") "echo hi" = ["cmd"; "/c"; "echo hi"] /\
  get_shell_command (machine "Linux" 0 "err") "echo hi" = ["sh"; "-c"; "echo hi"].
Proof.
  split.
  - apply (proj1 (get_shell_command_shape (machine "Windows" 0 "err") "echo hi")).
    reflexivity.
  - apply (proj1 (proj2 (get_shell_command_shape (machine "Linux" 0 "err") "echo hi"))).
    vm_compute. discriminate.
Defined.

(** C4. The npm install line for a directory [d] is [cd d && npm install]
    when the platform identity is Windows and [npm --prefix d install] on
    every other identity, with [d] spliced in as it is. *)
Theorem get_npm_install_command_shape (w : World) (d : string) :
  (detect_platform w = Windows ->
   get_npm_install_command w d = "cd " +:+ d +:+ " && npm install") /\
  (detect_platform w <> Windows ->
   get_npm_install_command w d = "npm --prefix " +:+ d +:+ " install").
Proof.
  rewrite detect_platform_Windows. unfold get_npm_install_command.
  destruct (is_windows w); split; congruence.
Qed.

Lemma get_npm_install_command_shape_witness :
  get_npm_install_command (machine "Windows" 0 "err") "frontend"
    = "cd frontend && npm install" /\
  get_npm_install_command (machine "Darwin" 0 "err") "frontend"
    = "npm --prefix frontend install".
Proof.
  split.
  - apply (proj1 (get_npm_install_command_shape (machine "Windows" 0 "err") "frontend")).
    reflexivity.
  - apply (proj2 (get_npm_install_command_shape (machine "Darwin" 0 "err") "frontend")).
    vm_compute. discriminate.
Defined.

(** ** Tool discovery *)

Lemma check_command_exists_true (w : World) (c : string) :
  check_command_exists w c = true <-> is_Some (which w c).
Proof.
  unfold check_command_exists. destruct (which w c); split; intros H.
  - eauto.
  - reflexivity.
  - discriminate.
  - destruct H as [? H]. discriminate.
Qed.

Lemma check_command_exists_false (w : World) (c : string) :
  check_command_exists w c = false <-> which w c = None.
Proof.
  unfold check_command_exists. destruct (which w c); split; congruence.
Qed.

(** The loop stops at the first candidate the PATH resolves. *)
Lemma get_make_command_loop_Some (w : World) (cmds : list string) (c : string) :
  get_make_command_loop w cmds = Some c <->
  exists pre post : list string,
    cmds = (pre ++ c :: post)%list /\
    Forall (fun x => which w x = None) pre /\
    is_Some (which w c).
Proof.
  induction cmds as [| cmd rest IH]; simpl.
  - split; [discriminate |].
    intros (pre & post & E & _). destruct pre; discriminate.
  - destruct (check_command_exists w cmd) eqn:Ex.
    + apply check_command_exists_true in Ex. split.
      * intros [= <-]. exists [], rest. auto.
      * intros (pre & post & E & Hpre & _).
        destruct pre as [| x pre]; simpl in E; injection E as -> ->.
        -- reflexivity.
        -- apply Forall_cons in Hpre as [Hx _].
           destruct Ex as [? Ex]. congruence.
    + apply check_command_exists_false in Ex. rewrite IH. split.
      * intros (pre & post & -> & Hpre & Hc).
        exists (cmd :: pre), post. auto.
      * intros (pre & post & E & Hpre & Hc).
        destruct pre as [| x pre]; simpl in E; injection E as -> ->.
        -- destruct Hc as [? Hc]. congruence.
        -- apply Forall_cons in Hpre as [_ Hpre]. eauto.
Qed.

Lemma get_make_command_loop_None (w : World) (cmds : list string) :
  get_make_command_loop w cmds = None <->
  Forall (fun x => which w x = None) cmds.
Proof.
  induction cmds as [| cmd rest IH]; simpl.
  - split; auto.
  - rewrite Forall_cons.
    destruct (check_command_exists w cmd) eqn:Ex.
    + apply check_command_exists_true in Ex as [? Ex].
      split; [discriminate | intros [H _]; congruence].
    + apply check_command_exists_false in Ex. rewrite IH. tauto.
Qed.

(** C5. Whatever the PATH resolves, [get_make_command] returns the first of
    make, gmake, mingw32-make (in that order) that resolves to an
    executable: it returns [c] exactly when [c] is one of the three, [c]
    resolves and no candidate before it does; it returns nothing exactly
    when none of the three resolves. *)
Theorem get_make_command_first_available (w : World) :
  (forall c : string,
     get_make_command w = Some c <->
     exists pre post : list string,
       ["make"; "gmake"; "mingw32-make"] = (pre ++ c :: post)%list /\
       Forall (fun x => which w x = None) pre /\
       is_Some (which w c)) /\
  (get_make_command w = None <->
   which w "make" = None /\ which w "gmake" = None /\
   which w "mingw32-make" = None).
Proof.
  unfold get_make_command, make_commands. split.
  - intros c. apply get_make_command_loop_Some.
  - rewrite get_make_command_loop_None, !Forall_cons, Forall_nil. tauto.
Qed.

Lemma get_make_command_first_available_witness :
  get_make_command (machine "Linux" 0 "err") = Some "gmake" /\
  get_make_command (read_only_machine "Linux") = None.
Proof.
  split.
  - apply (proj1 (get_make_command_first_available (machine "Linux" 0 "err"))).
    exists ["make"], ["mingw32-make"]. split; [reflexivity |]. split.
    + repeat constructor.
    + exists "/usr/bin/gmake". reflexivity.
  - apply (proj2 (get_make_command_first_available (read_only_machine "Linux"))).
    repeat split.
Defined.

(** ** Installation advisory *)

Lemma detect_platform_not_Windows_MacOS (w : World) :
  detect_platform w <> Windows -> detect_platform w <> MacOS ->
  is_windows w = false /\ is_macos w = false.
Proof.
  unfold detect_platform.
  destruct (is_windows w), (is_macos w); intros H1 H2; split; congruence.
Qed.

Lemma detect_platform_Linux (w : World) :
  detect_platform w = Linux -> is_windows w = false /\ is_macos w = false.
Proof.
  intros H. apply detect_platform_not_Windows_MacOS; rewrite H; discriminate.
Qed.

(** C9. On every platform identity that is neither Windows nor macOS, the
    Other one of an unrecognised OS name included, the make installation
    advisory is the text returned on Linux. *)
Theorem suggest_make_installation_default_is_linux (w wl : World) :
  detect_platform w <> Windows ->
  detect_platform w <> MacOS ->
  detect_platform wl = Linux ->
  suggest_make_installation w = suggest_make_installation wl /\
  str_contains "To install make on Linux" (suggest_make_installation w) = true.
Proof.
  intros Hw Hm Hl.
  destruct (detect_platform_not_Windows_MacOS w Hw Hm) as [Ew Em].
  destruct (detect_platform_Linux wl Hl) as [Ewl Eml].
  unfold suggest_make_installation. rewrite Ew, Em, Ewl, Eml.
  split; [reflexivity | vm_compute; reflexivity].
Qed.

Lemma suggest_make_installation_default_is_linux_witness :
  detect_platform (machine "FreeBSD" 0 "err") = Other /\
  suggest_make_installation (machine "FreeBSD" 0 "err")
    = suggest_make_installation (machine "Linux" 0 "err").
Proof.
  split; [reflexivity |].
  apply (suggest_make_installation_default_is_linux
           (machine "FreeBSD" 0 "err") (machine "Linux" 0 "err")).
  - vm_compute. discriminate.
  - vm_compute. discriminate.
  - reflexivity.
Defined.

(** ** Running a command *)


(** What the call does, by the answer of the spawner. *)
Lemma run_cross_platform_command_eq
    (w : World) (command : string) (cwd : option Path)
    (capture_output check : bool) :
  let shell_cmd := get_shell_command w command in
  let w1 := set_spawned (spawned w ++ [shell_cmd])%list w in
  let ran := set_files (child_files w shell_cmd cwd (files w)) w1 in
  let finish := fun (code : Z) (stdout stderr : option string) =>
    if check && negb (code =? 0)
    then
      let e := CalledProcessError code shell_cmd stdout stderr in
      (Raised e,
       set_log (log w ++ [(ERROR, "Command failed: " +:+ command);
                          (ERROR, "Error: " +:+ default (exn_str w e) (stderr_text e))])%list
               ran)
    else (Returned (mkCompletedProcess shell_cmd code stdout stderr), ran) in
  run_cross_platform_command command cwd capture_output check w =
    match spawn w shell_cmd cwd with
    | SpawnFails msg => (Raised (OSError msg), w1)
    | SpawnInvalid msg => (Raised (ValueError msg), w1)
    | DecodeFails code reason =>
        if capture_output then (Raised (UnicodeDecodeError reason), ran)
        else finish code None None
    | ProcessExits code out err =>
        finish code (if capture_output then Some out else None)
                    (if capture_output then Some err else None)
    end.
Proof.
  cbv zeta.
  unfold run_cross_platform_command, bind, gets, try_except, subprocess_run,
    ret, raise, logging_error, logging_call.
  destruct (spawn w (get_shell_command w command) cwd)
    as [code out err | code reason | msg | msg]; try reflexivity.
  - destruct (check && negb (code =? 0)); simpl; [| reflexivity].
    rewrite <- app_assoc. reflexivity.
  - destruct capture_output; [reflexivity |].
    destruct (check && negb (code =? 0)); simpl; [| reflexivity].
    rewrite <- app_assoc. reflexivity.
Qed.




(** ** UTF-8 set-up *)

Lemma set_environ_same (w : World) : set_environ (environ w) w = w.
Proof. destruct w. reflexivity. Qed.

Lemma environ_setdefault_eq (key value : string) (w : World) :
  environ_setdefault key value w =
    (Returned (default value (environ w !! key)),
     set_environ (setdefault_env key value (environ w)) w).
Proof.
  unfold environ_setdefault, setdefault_env.
  destruct (environ w !! key); simpl; [| reflexivity].
  rewrite set_environ_same. reflexivity.
Qed.

Lemma ensure_utf8_encoding_eq (w : World) :
  ensure_utf8_encoding w = (Returned tt, set_environ (utf8_env w) w).
Proof.
  unfold ensure_utf8_encoding, utf8_env, bind, gets, ret.
  destruct (is_windows w).
  - rewrite environ_setdefault_eq. simpl.
    destruct (os_has_add_dll_directory w).
    + rewrite environ_setdefault_eq. reflexivity.
    + reflexivity.
  - rewrite set_environ_same. reflexivity.
Qed.

(** [setdefault] gives its key a value, the one it had if any, and touches
    no other variable. *)
Lemma setdefault_env_lookup (key value : string) (env : gmap string string)
    (k : string) :
  setdefault_env key value env !! k =
    if decide (k = key) then Some (default value (env !! key)) else env !! k.
Proof.
  unfold setdefault_env.
  destruct (env !! key) as [v |] eqn:E; simpl.
  - destruct (decide (k = key)) as [-> |]; congruence.
  - rewrite lookup_insert.
    destruct (decide (key = k)), (decide (k = key)); congruence.
Qed.

Lemma setdefault_env_present (key value : string) (env : gmap string string) :
  is_Some (env !! key) -> setdefault_env key value env = env.
Proof. unfold setdefault_env. intros [v ->]. reflexivity. Qed.

Lemma setdefault_env_keeps (key value : string) (env : gmap string string)
    (k v : string) :
  env !! k = Some v -> setdefault_env key value env !! k = Some v.
Proof.
  intros H. rewrite setdefault_env_lookup.
  destruct (decide (k = key)) as [-> |]; [rewrite H |]; auto.
Qed.

Lemma setdefault_env_is_Some (key value : string) (env : gmap string string) :
  is_Some (setdefault_env key value env !! key).
Proof.
  rewrite setdefault_env_lookup. destruct (decide (key = key)); [eauto | done].
Qed.

Lemma setdefault_env_idem (key value : string) (env : gmap string string) :
  setdefault_env key value (setdefault_env key value env)
    = setdefault_env key value env.
Proof. apply setdefault_env_present, setdefault_env_is_Some. Qed.

(** The environment of the set-up is a fixed point of the set-up. *)
Lemma utf8_env_idem (w : World) :
  utf8_env (set_environ (utf8_env w) w) = utf8_env w.
Proof.
  unfold utf8_env. simpl.
  change (is_windows (set_environ ?e w)) with (is_windows w).
  destruct (is_windows w); [| reflexivity].
  destruct (os_has_add_dll_directory w).
  - rewrite (setdefault_env_present "PYTHONIOENCODING").
    + apply setdefault_env_idem.
    + destruct (setdefault_env_is_Some "PYTHONIOENCODING" "utf-8" (environ w))
        as [v Hv].
      exists v. apply setdefault_env_keeps, Hv.
  - apply setdefault_env_idem.
Qed.

(** C6. The UTF-8 set-up is idempotent and sets only what is absent: a
    second call returns leaving the world, environment included, exactly as
    the first call left it; a variable that had a value keeps it; no
    variable other than PYTHONIOENCODING and PYTHONUTF8 is touched; and on
    Windows an unset PYTHONIOENCODING becomes utf-8. *)
Theorem ensure_utf8_encoding_idempotent_set_if_absent (w : World) :
  let w1 := world_after ensure_utf8_encoding w in
  outcome_of ensure_utf8_encoding w = Returned tt /\
  ensure_utf8_encoding w1 = (Returned tt, w1) /\
  (forall k v : string, environ w !! k = Some v -> environ w1 !! k = Some v) /\
  (forall k : string,
     k <> "PYTHONIOENCODING" -> k <> "PYTHONUTF8" ->
     environ w1 !! k = environ w !! k) /\
  (is_windows w = true ->
   environ w !! "PYTHONIOENCODING" = None ->
   environ w1 !! "PYTHONIOENCODING" = Some "utf-8").
Proof.
  cbv zeta. unfold outcome_of, world_after.
  rewrite !ensure_utf8_encoding_eq. simpl. rewrite utf8_env_idem.
  split_conj.
  - reflexivity.
  - reflexivity.
  - intros k v H. unfold utf8_env.
    destruct (is_windows w); [| exact H].
    destruct (os_has_add_dll_directory w); auto using setdefault_env_keeps.
  - intros k H1 H2. unfold utf8_env.
    destruct (is_windows w); [| reflexivity].
    destruct (os_has_add_dll_directory w);
      rewrite ?setdefault_env_lookup;
      repeat (destruct (decide _); try congruence).
  - intros Hw Hk. unfold utf8_env. rewrite Hw.
    assert (setdefault_env "PYTHONIOENCODING" "utf-8" (environ w)
              !! "PYTHONIOENCODING" = Some "utf-8") as H1.
    { rewrite setdefault_env_lookup, Hk. reflexivity. }
    destruct (os_has_add_dll_directory w); auto using setdefault_env_keeps.
Qed.

Lemma ensure_utf8_encoding_idempotent_set_if_absent_witness :
  environ (world_after ensure_utf8_encoding
             (set_environ {["PYTHONIOENCODING" := "latin-1"]}
                          (machine "Windows" 0 "err")))
    !! "PYTHONIOENCODING" = Some "latin-1" /\
  environ (world_after ensure_utf8_encoding (machine "Windows" 0 "err"))
    !! "PYTHONIOENCODING" = Some "utf-8".
Proof.
  split.
  - apply (proj1 (proj2 (proj2 (ensure_utf8_encoding_idempotent_set_if_absent
             (set_environ {["PYTHONIOENCODING" := "latin-1"]}
                          (machine "Windows" 0 "err")))))).
    vm_compute. reflexivity.
  - apply (proj2 (proj2 (proj2 (proj2
             (ensure_utf8_encoding_idempotent_set_if_absent
                (machine "Windows" 0 "err")))))).
    + reflexivity.
    + vm_compute. reflexivity.
Defined.

(** ** Build scripts *)

Lemma open_w_write_eq (path : Path) (content : string) (w : World) :
  open_w_write path content w =
    match fs_fault w path with
    | None =>
        (Returned tt,
         set_files (<[path := content]> (files w))
                   (set_opened (opened w ++ [path])%list w))
    | Some f =>
        (Raised (fault_exn f),
         after_fault path f (set_opened (opened w ++ [path])%list w))
    end.
Proof.
  unfold open_w_write. destruct (fs_fault w path) as [[msg | msg partial] |];
    reflexivity.
Qed.

Lemma after_fault_log (path : Path) (f : WriteFault) (w : World) :
  log (after_fault path f w) = log w.
Proof. destruct f; reflexivity. Qed.

Lemma after_fault_exn_str (path : Path) (f : WriteFault) (w : World) :
  exn_str (after_fault path f w) = exn_str w.
Proof. destruct f; reflexivity. Qed.

Lemma fault_exn_is_Exception (f : WriteFault) : is_Exception (fault_exn f) = true.
Proof. destruct f; reflexivity. Qed.

Lemma build_paths_differ (project_path : Path) :
  project_path // "build.bat" <> project_path // "build.ps1".
Proof.
  unfold path_join. intros H. apply app_inv_head in H. discriminate.
Qed.

(** What the call does, by the first fault it meets. *)
Lemma create_platform_specific_scripts_eq (project_path : Path) (w : World) :
  let bat := project_path // "build.bat" in
  let ps := project_path // "build.ps1" in
  let warn := fun (f : WriteFault) (w0 : World) =>
    set_log (log w0 ++ [(WARNING, "Failed to create platform-specific scripts: "
                                   +:+ exn_str w0 (fault_exn f))])%list w0 in
  create_platform_specific_scripts project_path w =
    match fs_fault w bat with
    | Some f =>
        (Returned tt,
         warn f (after_fault bat f (set_opened (opened w ++ [bat])%list w)))
    | None =>
        let w1 := set_files (<[bat := batch_content]> (files w))
                            (set_opened (opened w ++ [bat])%list w) in
        let o2 := set_opened (opened w1 ++ [ps])%list w1 in
        match fs_fault w ps with
        | Some f => (Returned tt, warn f (after_fault ps f o2))
        | None =>
            let w2 := set_files (<[ps := powershell_content]> (files w1)) o2 in
            (Returned tt,
             set_log (log w2 ++ [(INFO, "Created platform-specific build scripts")])%list w2)
        end
    end.
Proof.
  cbv zeta.
  unfold create_platform_specific_scripts, try_except, bind.
  rewrite open_w_write_eq.
  destruct (fs_fault w (project_path // "build.bat")) as [f |].
  - rewrite fault_exn_is_Exception. reflexivity.
  - rewrite open_w_write_eq. simpl fs_fault.
    destruct (fs_fault w (project_path // "build.ps1")) as [f |].
    + rewrite fault_exn_is_Exception. reflexivity.
    + reflexivity.
Qed.

(** C7. Whatever the target directory and whatever the filesystem does,
    [create_platform_specific_scripts] returns normally: a write that fails
    raises nothing to the caller, and the failure is logged as one
    warning.  Without a failure the success is logged instead. *)
Theorem create_platform_specific_scripts_never_raises
    (w : World) (project_path : Path) :
  let w' := world_after (create_platform_specific_scripts project_path) w in
  outcome_of (create_platform_specific_scripts project_path) w = Returned tt /\
  (forall f : WriteFault,
     first_write_fault w project_path = Some f ->
     log w' = (log w ++ [(WARNING, "Failed to create platform-specific scripts: "
                                    +:+ exn_str w (fault_exn f))])%list) /\
  (first_write_fault w project_path = None ->
   log w' = (log w ++ [(INFO, "Created platform-specific build scripts")])%list).
Proof.
  cbv zeta. unfold outcome_of, world_after, first_write_fault.
  rewrite create_platform_specific_scripts_eq. cbv zeta.
  destruct (fs_fault w (project_path // "build.bat")) as [f1 |].
  - simpl. rewrite after_fault_log, after_fault_exn_str. split_conj.
    + reflexivity.
    + intros f [= <-]. reflexivity.
    + discriminate.
  - destruct (fs_fault w (project_path // "build.ps1")) as [f2 |].
    + simpl. rewrite after_fault_log, after_fault_exn_str. split_conj.
      * reflexivity.
      * intros f [= <-]. reflexivity.
      * discriminate.
    + simpl. split_conj.
      * reflexivity.
      * discriminate.
      * reflexivity.
Qed.

Lemma create_platform_specific_scripts_never_raises_witness :
  outcome_of (create_platform_specific_scripts ["srv"; "project"])
             (read_only_machine "Linux") = Returned tt /\
  log (world_after (create_platform_specific_scripts ["srv"; "project"])
                   (read_only_machine "Linux"))
    = [(WARNING, "Failed to create platform-specific scripts: exception")].
Proof.
  pose proof (create_platform_specific_scripts_never_raises
                (read_only_machine "Linux") ["srv"; "project"]) as H.
  cbv zeta in H. destruct H as (Hr & Hl & _).
  split.
  - exact Hr.
  - exact (Hl (OpenFails "Permission denied") eq_refl).
Defined.

(** [str_contains] is substring occurrence. *)
Lemma append_String (a : ascii) (s t : string) :
  String a s +:+ t = String a (s +:+ t).
Proof. reflexivity. Qed.

Lemma prefix_true (n h : string) :
  String.prefix n h = true <-> exists post, h = n +:+ post.
Proof.
  revert h. induction n as [| a n IH]; intros h.
  - destruct h; simpl; split; eauto.
  - destruct h as [| b h]; simpl.
    + split; [discriminate | intros [post [=]]].
    + destruct (Ascii.ascii_dec a b) as [-> | Hne].
      * rewrite IH. split; intros [post E]; exists post;
          rewrite append_String in *; congruence.
      * split; [discriminate |].
        intros [post E]. rewrite append_String in E. congruence.
Qed.

Lemma str_contains_unfold (n h : string) :
  str_contains n h =
    String.prefix n h ||
    match h with
    | EmptyString => false
    | String _ rest => str_contains n rest
    end.
Proof. destruct h; reflexivity. Qed.

Lemma str_contains_true (n h : string) :
  str_contains n h = true <-> exists pre post, h = pre +:+ n +:+ post.
Proof.
  induction h as [| b h IH]; rewrite str_contains_unfold.
  - rewrite orb_false_r, prefix_true. split.
    + intros [post E]. exists EmptyString, post. exact E.
    + intros (pre & post & E). destruct pre; [eauto | discriminate].
  - rewrite orb_true_iff, prefix_true, IH. split.
    + intros [[post E] | (pre & post & E)].
      * exists EmptyString, post. exact E.
      * exists (String b pre), post. rewrite append_String. congruence.
    + intros (pre & post & E). destruct pre as [| a pre].
      * left. eauto.
      * right. rewrite append_String in E. injection E as _ E. eauto.
Qed.

(** The call on a filesystem that accepts both writes. *)
Lemma create_platform_specific_scripts_ok (w : World) (project_path : Path) :
  fs_fault w (project_path // "build.bat") = None ->
  fs_fault w (project_path // "build.ps1") = None ->
  create_platform_specific_scripts project_path w =
    (Returned tt,
     set_log (log w ++ [(INFO, "Created platform-specific build scripts")])%list
       (set_files (<[project_path // "build.ps1" := powershell_content]>
                     (<[project_path // "build.bat" := batch_content]> (files w)))
                  (set_opened ((opened w ++ [project_path // "build.bat"])
                                 ++ [project_path // "build.ps1"])%list
                              w))).
Proof.
  intros Hbat Hps. rewrite create_platform_specific_scripts_eq. cbv zeta.
  rewrite Hbat, Hps. reflexivity.
Qed.

Lemma create_platform_specific_scripts_written (w : World) (project_path : Path) :
  fs_fault w (project_path // "build.bat") = None ->
  fs_fault w (project_path // "build.ps1") = None ->
  let w1 := world_after (create_platform_specific_scripts project_path) w in
  files w1 !! (project_path // "build.bat") = Some batch_content /\
  files w1 !! (project_path // "build.ps1") = Some powershell_content.
Proof.
  intros Hbat Hps. cbv zeta. unfold world_after.
  rewrite create_platform_specific_scripts_ok by assumption. simpl.
  pose proof (build_paths_differ project_path) as Hne. split.
  - rewrite lookup_insert_ne, lookup_insert_eq by congruence. reflexivity.
  - apply lookup_insert_eq.
Qed.

(** C8. When the filesystem accepts the two writes, the call writes exactly
    two files, build.bat and build.ps1 of the target directory, and leaves
    every other path as it was.  The first holds the batch text, with
    [@echo off] and the command names install, playground, test and lint;
    the second holds the PowerShell text, with [param(], [switch] and the
    same four names.  A second call on the same directory overwrites both
    with the same text, so the files are as after the first call. *)
Theorem create_platform_specific_scripts_two_files
    (w : World) (project_path : Path) :
  let bat := project_path // "build.bat" in
  let ps := project_path // "build.ps1" in
  let w1 := world_after (create_platform_specific_scripts project_path) w in
  let w2 := world_after (create_platform_specific_scripts project_path) w1 in
  fs_fault w bat = None ->
  fs_fault w ps = None ->
  files w1 = <[ps := powershell_content]> (<[bat := batch_content]> (files w)) /\
  bat <> ps /\
  files w1 !! bat = Some batch_content /\
  files w1 !! ps = Some powershell_content /\
  (forall p : Path, p <> bat -> p <> ps -> files w1 !! p = files w !! p) /\
  dom (files w1) = dom (files w) ∪ {[bat; ps]} /\
  forallb (fun n => str_contains n batch_content)
          ["@echo off"; "install"; "playground"; "test"; "lint"] = true /\
  forallb (fun n => str_contains n powershell_content)
          ["param("; "switch"; "install"; "playground"; "test"; "lint"] = true /\
  outcome_of (create_platform_specific_scripts project_path) w1 = Returned tt /\
  files w2 = files w1.
Proof.
  cbv zeta. intros Hbat Hps.
  pose proof (build_paths_differ project_path) as Hne.
  destruct (create_platform_specific_scripts_written w project_path Hbat Hps)
    as [Hb Hp].
  unfold outcome_of, world_after in *.
  rewrite (create_platform_specific_scripts_ok w project_path Hbat Hps) in *.
  rewrite create_platform_specific_scripts_ok by assumption. simpl in *.
  split_conj.
  - reflexivity.
  - exact Hne.
  - exact Hb.
  - exact Hp.
  - intros p H1 H2. rewrite !lookup_insert_ne by congruence. reflexivity.
  - rewrite !dom_insert_L. apply set_eq. intros p.
    rewrite !elem_of_union, !elem_of_singleton. tauto.
  - vm_compute. reflexivity.
  - vm_compute. reflexivity.
  - reflexivity.
  - apply map_eq. intros p. rewrite !lookup_insert.
    repeat case_decide; congruence.
Qed.

Lemma create_platform_specific_scripts_two_files_witness :
  files (world_after (create_platform_specific_scripts ["srv"; "project"])
                     (machine "Linux" 0 "err"))
    !! ["srv"; "project"; "build.bat"] = Some batch_content /\
  files (world_after (create_platform_specific_scripts ["srv"; "project"])
                     (machine "Linux" 0 "err"))
    !! ["srv"; "project"; "build.ps1"] = Some powershell_content.
Proof.
  pose proof (create_platform_specific_scripts_two_files
                (machine "Linux" 0 "err") ["srv"; "project"]
                eq_refl eq_refl) as H.
  cbv zeta in H. destruct H as (_ & _ & Hbat & Hps & _).
  split; [exact Hbat | exact Hps].
Defined.

(** The call never looks at the OS name: run on a world that differs only
    in the reported name, it does the same thing. *)
Lemma create_platform_specific_scripts_ignores_system
    (w : World) (project_path : Path) (sys : string) :
  create_platform_specific_scripts project_path (set_system sys w) =
    (outcome_of (create_platform_specific_scripts project_path) w,
     set_system sys (world_after (create_platform_specific_scripts project_path) w)).
Proof.
  unfold outcome_of, world_after.
  rewrite !create_platform_specific_scripts_eq. cbv zeta. simpl.
  destruct (fs_fault w (project_path // "build.bat")) as [[? | ? ?] |];
    try reflexivity.
  destruct (fs_fault w (project_path // "build.ps1")) as [[? | ? ?] |];
    reflexivity.
Qed.

(** C10. The two script bodies are the same constants on every platform
    identity and for every target directory: on any two worlds and
    directories whose filesystems accept the writes, build.bat holds the
    batch text and build.ps1 the PowerShell text, and changing the OS name a
    world reports changes nothing of what the call does. *)
Theorem create_platform_specific_scripts_platform_independent
    (w w' : World) (d d' : Path) (sys : string) :
  let written := fun (w0 : World) (d0 : Path) (name : string) =>
    files (world_after (create_platform_specific_scripts d0) w0) !! (d0 // name) in
  first_write_fault w d = None ->
  first_write_fault w' d' = None ->
  written w d "build.bat" = Some batch_content /\
  written w' d' "build.bat" = Some batch_content /\
  written w d "build.ps1" = Some powershell_content /\
  written w' d' "build.ps1" = Some powershell_content /\
  create_platform_specific_scripts d (set_system sys w) =
    (outcome_of (create_platform_specific_scripts d) w,
     set_system sys (world_after (create_platform_specific_scripts d) w)).
Proof.
  cbv zeta. unfold first_write_fault. intros H H'.
  destruct (fs_fault w (d // "build.bat")) eqn:Hb; [discriminate |].
  destruct (fs_fault w' (d' // "build.bat")) eqn:Hb'; [discriminate |].
  destruct (create_platform_specific_scripts_written w d Hb H) as [Hbat Hps].
  destruct (create_platform_specific_scripts_written w' d' Hb' H')
    as [Hbat' Hps'].
  split_conj; auto using create_platform_specific_scripts_ignores_system.
Qed.

Lemma create_platform_specific_scripts_platform_independent_witness :
  files (world_after (create_platform_specific_scripts ["srv"; "project"])
                     (machine "Linux" 0 "err"))
    !! ["srv"; "project"; "build.bat"] =
  files (world_after (create_platform_specific_scripts ["C:"; "work"])
                     (machine "Windows" 0 "err"))
    !! ["C:"; "work"; "build.bat"].
Proof.
  pose proof (create_platform_specific_scripts_platform_independent
                (machine "Linux" 0 "err") (machine "Windows" 0 "err")
                ["srv"; "project"] ["C:"; "work"] "Darwin"
                eq_refl eq_refl) as H.
  cbv zeta in H. destruct H as (H1 & H2 & _).
  exact (eq_trans H1 (eq_sym H2)).
Defined.

(** * Further properties of the module *)

(** ** Running a command: failures, result and log *)

(** X1. Running a command never touches the environment variables of the
    calling process or the platform it reports, and never drops a log
    record: the log before the call is a prefix of the log after it.  The
    call writes no file itself: the files after it are the ones the child
    left, and they are the files before it when no child could be
    started. *)
Theorem run_cross_platform_command_frame
    (w : World) (command : string) (cwd : option Path)
    (capture_output check : bool) :
  let shell_cmd := get_shell_command w command in
  let w' := world_after (run_cross_platform_command command cwd capture_output check) w in
  environ w' = environ w /\
  system w' = system w /\
  (exists added, log w' = (log w ++ added)%list) /\
  files w' =
    match child_exit_code (spawn w shell_cmd cwd) with
    | Some _ => child_files w shell_cmd cwd (files w)
    | None => files w
    end.
Proof.
  cbv zeta. unfold world_after.
  rewrite run_cross_platform_command_eq. cbv zeta.
  destruct (spawn w (get_shell_command w command) cwd)
    as [code out err | code reason | msg | msg];
    try destruct capture_output;
    try destruct (check && negb (code =? 0));
    simpl; split_conj; try reflexivity;
    first [ exists []; symmetry; apply app_nil_r | eexists; reflexivity ].
Qed.







(** ** UTF-8 set-up: what changes and where *)

(** X5. Off Windows the UTF-8 set-up does nothing at all: it returns and
    the world is the one it started from.  On every platform it changes
    nothing but the environment variables: files, log, spawned processes
    and the rest of the world are as before. *)
Theorem ensure_utf8_encoding_noop_off_windows (w : World) :
  let w1 := world_after ensure_utf8_encoding w in
  (is_windows w = false -> ensure_utf8_encoding w = (Returned tt, w)) /\
  w1 = set_environ (environ w1) w.
Proof.
  cbv zeta. unfold world_after. rewrite ensure_utf8_encoding_eq. simpl. split.
  - intros Hw. unfold utf8_env. rewrite Hw, set_environ_same. reflexivity.
  - reflexivity.
Qed.

Lemma ensure_utf8_encoding_noop_off_windows_witness :
  ensure_utf8_encoding (machine "Linux" 0 "err")
    = (Returned tt, machine "Linux" 0 "err").
Proof.
  apply (proj1 (ensure_utf8_encoding_noop_off_windows (machine "Linux" 0 "err"))).
  reflexivity.
Defined.

(** X6. On Windows the set-up leaves PYTHONIOENCODING set, to the value it
    had or else to utf-8.  PYTHONUTF8 is handled the same way, with default
    1, only when the interpreter has [os.add_dll_directory]; without it the
    variable is left as it was, set or not.  In every case the set of
    variables only grows, by at most these two names. *)
Theorem ensure_utf8_encoding_on_windows (w : World) :
  let env1 := environ (world_after ensure_utf8_encoding w) in
  (is_windows w = true ->
   env1 !! "PYTHONIOENCODING"
     = Some (default "utf-8" (environ w !! "PYTHONIOENCODING")) /\
   env1 !! "PYTHONUTF8"
     = if os_has_add_dll_directory w
       then Some (default "1" (environ w !! "PYTHONUTF8"))
       else environ w !! "PYTHONUTF8") /\
  dom (environ w) ⊆ dom env1 /\
  dom env1 ⊆ dom (environ w) ∪ {["PYTHONIOENCODING"; "PYTHONUTF8"]}.
Proof.
  cbv zeta. unfold world_after. rewrite ensure_utf8_encoding_eq. simpl.
  unfold utf8_env. split_conj.
  - intros Hw. rewrite Hw.
    destruct (os_has_add_dll_directory w); rewrite !setdefault_env_lookup.
    + split; repeat (case_decide; try congruence).
    + split; repeat (case_decide; try congruence).
  - intros k. rewrite !elem_of_dom. intros [v Hv]. exists v.
    destruct (is_windows w); [| exact Hv].
    destruct (os_has_add_dll_directory w); auto using setdefault_env_keeps.
  - intros k. rewrite elem_of_union, !elem_of_dom.
    rewrite elem_of_union, !elem_of_singleton.
    destruct (is_windows w); [| auto].
    destruct (os_has_add_dll_directory w); rewrite !setdefault_env_lookup;
      repeat (case_decide; auto).
Qed.

Lemma ensure_utf8_encoding_on_windows_witness :
  environ (world_after ensure_utf8_encoding (machine "Windows" 0 "err"))
    !! "PYTHONUTF8" = Some "1" /\
  environ (world_after ensure_utf8_encoding (read_only_machine "Windows"))
    !! "PYTHONUTF8" = None.
Proof.
  split.
  - apply (proj1 (ensure_utf8_encoding_on_windows (machine "Windows" 0 "err"))
                 eq_refl).
  - apply (proj1 (ensure_utf8_encoding_on_windows (read_only_machine "Windows"))
                 eq_refl).
Defined.

(** ** Build scripts: partial failure, repetition, locality *)

(** X7. Nothing is rolled back: when build.bat is written and the write of
    build.ps1 fails, the call still returns normally, build.bat stays on
    disk with the batch text, build.ps1 holds whatever the failed write left
    (its old content if it could not even be opened), and the last log
    record is the warning. *)
Theorem create_platform_specific_scripts_no_rollback
    (w : World) (project_path : Path) (f : WriteFault) :
  fs_fault w (project_path // "build.bat") = None ->
  fs_fault w (project_path // "build.ps1") = Some f ->
  let w' := world_after (create_platform_specific_scripts project_path) w in
  outcome_of (create_platform_specific_scripts project_path) w = Returned tt /\
  files w' !! (project_path // "build.bat") = Some batch_content /\
  files w' !! (project_path // "build.ps1") =
    match f with
    | OpenFails _ => files w !! (project_path // "build.ps1")
    | WriteFails _ partial => Some partial
    end /\
  log w' = (log w ++ [(WARNING, "Failed to create platform-specific scripts: "
                                 +:+ exn_str w (fault_exn f))])%list.
Proof.
  intros Hb Hp. cbv zeta. unfold outcome_of, world_after.
  rewrite create_platform_specific_scripts_eq. cbv zeta. rewrite Hb, Hp.
  pose proof (build_paths_differ project_path) as Hne.
  destruct f as [msg | msg partial]; simpl; split_conj; try reflexivity.
  - apply lookup_insert_eq.
  - rewrite lookup_insert_ne by congruence. reflexivity.
  - rewrite lookup_insert_ne, lookup_insert_eq by congruence. reflexivity.
  - apply lookup_insert_eq.
Qed.

Lemma create_platform_specific_scripts_no_rollback_witness :
  files (world_after (create_platform_specific_scripts ["srv"; "project"])
                     (half_writable_machine "Windows" "# Power"))
    !! ["srv"; "project"; "build.bat"] = Some batch_content /\
  files (world_after (create_platform_specific_scripts ["srv"; "project"])
                     (half_writable_machine "Windows" "# Power"))
    !! ["srv"; "project"; "build.ps1"] = Some "# Power".
Proof.
  pose proof (create_platform_specific_scripts_no_rollback
                (half_writable_machine "Windows" "# Power") ["srv"; "project"]
                (WriteFails "No space left on device" "# Power")
                eq_refl eq_refl) as H.
  cbv zeta in H. destruct H as (_ & Hbat & Hps & _).
  split; [exact Hbat | exact Hps].
Defined.

(** X8. When the write of build.bat fails, build.ps1 is not attempted: its
    path is left exactly as it was even if the filesystem would have
    accepted it, and the only log record added is the warning (no success
    message). *)
Theorem create_platform_specific_scripts_stops_at_first_failure
    (w : World) (project_path : Path) (f : WriteFault) :
  fs_fault w (project_path // "build.bat") = Some f ->
  let w' := world_after (create_platform_specific_scripts project_path) w in
  files w' !! (project_path // "build.ps1")
    = files w !! (project_path // "build.ps1") /\
  files w' !! (project_path // "build.bat") =
    match f with
    | OpenFails _ => files w !! (project_path // "build.bat")
    | WriteFails _ partial => Some partial
    end /\
  log w' = (log w ++ [(WARNING, "Failed to create platform-specific scripts: "
                                 +:+ exn_str w (fault_exn f))])%list.
Proof.
  intros Hb. cbv zeta. unfold world_after.
  rewrite create_platform_specific_scripts_eq. cbv zeta. rewrite Hb.
  pose proof (build_paths_differ project_path) as Hne.
  destruct f as [msg | msg partial]; simpl; split_conj; try reflexivity.
  - rewrite lookup_insert_ne by congruence. reflexivity.
  - apply lookup_insert_eq.
Qed.

Lemma create_platform_specific_scripts_stops_at_first_failure_witness :
  files (world_after (create_platform_specific_scripts ["srv"; "project"])
                     (read_only_machine "Linux"))
    !! ["srv"; "project"; "build.ps1"] = None /\
  files (world_after (create_platform_specific_scripts ["srv"; "project"])
                     (read_only_machine "Linux"))
    !! ["srv"; "project"; "build.bat"] = None.
Proof.
  pose proof (create_platform_specific_scripts_stops_at_first_failure
                (read_only_machine "Linux") ["srv"; "project"]
                (OpenFails "Permission denied") eq_refl) as H.
  cbv zeta in H. destruct H as (Hps & Hbat & _).
  split; [exact Hps | exact Hbat].
Defined.

(** X9. Repeating the call never changes the files again, whether the
    writes succeed or fail: on every world, the files after two calls on a
    directory are the files after one, and each call adds exactly one log
    record. *)
Theorem create_platform_specific_scripts_files_idempotent
    (w : World) (project_path : Path) :
  let w1 := world_after (create_platform_specific_scripts project_path) w in
  let w2 := world_after (create_platform_specific_scripts project_path) w1 in
  files w2 = files w1 /\
  length (log w1) = S (length (log w)) /\
  length (log w2) = S (length (log w1)).
Proof.
  cbv zeta. unfold world_after.
  pose proof (build_paths_differ project_path) as Hne.
  rewrite (create_platform_specific_scripts_eq project_path w). cbv zeta.
  destruct (fs_fault w (project_path // "build.bat")) as [[m | m p] |] eqn:Hb;
    [| | destruct (fs_fault w (project_path // "build.ps1"))
           as [[m' | m' p'] |] eqn:Hp];
    rewrite create_platform_specific_scripts_eq; cbv zeta; simpl;
    rewrite Hb, ?Hp; simpl; rewrite ?length_app; simpl;
    (split_conj; [| lia | lia]);
    try reflexivity;
    apply map_eq; intros q; rewrite ?lookup_insert;
    repeat case_decide; congruence.
Qed.

(** X10. The call hands to [open], for writing, only the two names
    build.bat and build.ps1 under [project_path], in that order and once
    each, build.ps1 only after build.bat was written; it opens no other
    path, touches no environment variable and starts no process. *)
Theorem create_platform_specific_scripts_local
    (w : World) (project_path : Path) :
  let w' := world_after (create_platform_specific_scripts project_path) w in
  let bat := project_path // "build.bat" in
  let ps := project_path // "build.ps1" in
  (opened w' = (opened w ++ [bat])%list \/
   opened w' = (opened w ++ [bat; ps])%list) /\
  (opened w' = (opened w ++ [bat; ps])%list <-> fs_fault w bat = None) /\
  environ w' = environ w /\
  spawned w' = spawned w.
Proof.
  cbv zeta. unfold world_after.
  rewrite create_platform_specific_scripts_eq. cbv zeta.
  assert (forall (a b : Path) (l : list Path),
            (l ++ [a])%list = (l ++ [a; b])%list -> False) as Hlen.
  { intros a b l H. apply (f_equal length) in H.
    rewrite !length_app in H. simpl in H. lia. }
  destruct (fs_fault w (project_path // "build.bat")) as [[m | m q] |];
    [| | destruct (fs_fault w (project_path // "build.ps1")) as [[m' | m' q'] |]];
    simpl; rewrite <- ?app_assoc; simpl; split_conj;
    try reflexivity; auto;
    split; intros H; try discriminate; try reflexivity;
    exfalso; eapply Hlen; exact H.
Qed.

Lemma create_platform_specific_scripts_local_witness :
  opened (world_after (create_platform_specific_scripts ["srv"; "project"])
                      (machine "Linux" 0 "err"))
    = [["srv"; "project"; "build.bat"]; ["srv"; "project"; "build.ps1"]].
Proof.
  apply (proj2 (proj1 (proj2 (create_platform_specific_scripts_local
                                (machine "Linux" 0 "err") ["srv"; "project"])))).
  reflexivity.
Defined.

(** The script writer does not read the environment variables. *)
Lemma create_platform_specific_scripts_ignores_environ
    (w : World) (project_path : Path) (env : gmap string string) :
  create_platform_specific_scripts project_path (set_environ env w) =
    (outcome_of (create_platform_specific_scripts project_path) w,
     set_environ env (world_after (create_platform_specific_scripts project_path) w)).
Proof.
  unfold outcome_of, world_after.
  rewrite !create_platform_specific_scripts_eq. cbv zeta. simpl.
  destruct (fs_fault w (project_path // "build.bat")) as [[? | ? ?] |];
    try reflexivity.
  destruct (fs_fault w (project_path // "build.ps1")) as [[? | ? ?] |];
    reflexivity.
Qed.

(** The set-up reads only the platform, the interpreter and the
    environment, none of which the script writer changes. *)
Lemma utf8_env_after_scripts (w : World) (project_path : Path) :
  utf8_env (world_after (create_platform_specific_scripts project_path) w)
    = utf8_env w.
Proof.
  unfold world_after.
  rewrite create_platform_specific_scripts_eq. cbv zeta.
  destruct (fs_fault w (project_path // "build.bat")) as [[? | ? ?] |];
    try reflexivity.
  destruct (fs_fault w (project_path // "build.ps1")) as [[? | ? ?] |];
    reflexivity.
Qed.

(** X11. The UTF-8 set-up and the script writer do not interfere: run in
    either order they return the same and leave the same world, whatever
    the platform and whatever the filesystem does. *)
Theorem ensure_utf8_encoding_scripts_commute (w : World) (project_path : Path) :
  and_then ensure_utf8_encoding (create_platform_specific_scripts project_path) w
    = and_then (create_platform_specific_scripts project_path) ensure_utf8_encoding w.
Proof.
  unfold and_then, bind.
  rewrite ensure_utf8_encoding_eq.
  rewrite create_platform_specific_scripts_ignores_environ.
  destruct (create_platform_specific_scripts project_path w) as [r w'] eqn:E.
  unfold outcome_of, world_after. rewrite E. simpl.
  assert (r = Returned tt) as ->.
  { pose proof (create_platform_specific_scripts_eq project_path w) as H.
    cbv zeta in H. rewrite E in H.
    destruct (fs_fault w (project_path // "build.bat")) as [? |];
      [| destruct (fs_fault w (project_path // "build.ps1")) as [? |]];
      injection H as -> _; reflexivity. }
  rewrite ensure_utf8_encoding_eq.
  pose proof (utf8_env_after_scripts w project_path) as Hu.
  unfold world_after in Hu. rewrite E in Hu. simpl in Hu. rewrite Hu.
  reflexivity.
Qed.

(** ** Tool discovery: more tools on the PATH *)

Lemma get_make_command_loop_monotone (w w' : World) (cmds : list string) (c : string) :
  (forall x, is_Some (which w x) -> is_Some (which w' x)) ->
  get_make_command_loop w cmds = Some c ->
  exists (c' : string) (pre post : list string),
    cmds = (pre ++ c :: post)%list /\
    c' ∈ (pre ++ [c])%list /\
    get_make_command_loop w' cmds = Some c'.
Proof.
  intros Hsub. induction cmds as [| cmd rest IH]; simpl; [discriminate |].
  destruct (check_command_exists w cmd) eqn:Ex.
  - intros [= <-].
    apply check_command_exists_true, Hsub, check_command_exists_true in Ex.
    rewrite Ex. exists cmd, [], rest. split_conj; [reflexivity | | reflexivity].
    apply list_elem_of_here.
  - intros H. destruct (IH H) as (c' & pre & post & -> & Hin & Hc').
    destruct (check_command_exists w' cmd).
    + exists cmd, (cmd :: pre), post. split_conj; [reflexivity | | reflexivity].
      apply list_elem_of_here.
    + exists c', (cmd :: pre), post. split_conj; [reflexivity | | exact Hc'].
      apply list_elem_of_further, Hin.
Qed.

(** X12. Putting more tools on the PATH never loses the make command and
    never lowers its priority: if [get_make_command] finds [c] and every
    name that resolves still resolves afterwards, then it finds a command
    afterwards too, and that command is [c] or a candidate listed before
    [c]. *)
Theorem get_make_command_monotone (w w' : World) (c : string) :
  (forall x, is_Some (which w x) -> is_Some (which w' x)) ->
  get_make_command w = Some c ->
  exists (c' : string) (pre post : list string),
    ["make"; "gmake"; "mingw32-make"] = (pre ++ c :: post)%list /\
    c' ∈ (pre ++ [c])%list /\
    get_make_command w' = Some c'.
Proof.
  intros Hsub H. unfold get_make_command, make_commands in *.
  apply (get_make_command_loop_monotone w w'); assumption.
Qed.

Lemma get_make_command_monotone_witness :
  exists (c' : string) (pre post : list string),
    ["make"; "gmake"; "mingw32-make"] = (pre ++ "gmake" :: post)%list /\
    c' ∈ (pre ++ ["gmake"])%list /\
    get_make_command (with_tool "make" "/usr/bin/make" (machine "Linux" 0 "err"))
      = Some c'.
Proof.
  apply (get_make_command_monotone
           (machine "Linux" 0 "err")
           (with_tool "make" "/usr/bin/make" (machine "Linux" 0 "err"))
           "gmake").
  - intros x Hx. simpl. destruct (String.eqb x "make"); [eauto | exact Hx].
  - reflexivity.
Defined.

(** ** Command shapes: what the npm line keeps of its argument *)

Lemma length_append (s t : string) :
  String.length (s +:+ t) = (String.length s + String.length t)%nat.
Proof.
  induction s as [| a s IH]; [reflexivity |].
  rewrite append_String. simpl. rewrite IH. reflexivity.
Qed.

Lemma append_inj_suffix (s s' t : string) : s +:+ t = s' +:+ t -> s = s'.
Proof.
  revert s'. induction s as [| a s IH]; intros [| b s'] H.
  - reflexivity.
  - change (t = String b (s' +:+ t)) in H.
    apply (f_equal String.length) in H.
    simpl in H. rewrite length_append in H. lia.
  - change (String a (s +:+ t) = t) in H.
    apply (f_equal String.length) in H.
    simpl in H. rewrite length_append in H. lia.
  - rewrite !append_String in H. injection H as -> H.
    f_equal. apply IH, H.
Qed.

Lemma append_inj_prefix (s t t' : string) : s +:+ t = s +:+ t' -> t = t'.
Proof.
  induction s as [| a s IH]; intros H; [exact H |].
  rewrite !append_String in H. injection H as H. apply IH, H.
Qed.

(** X13. The npm install line keeps its directory argument whole: the
    directory occurs in the line as it was given, two different directories
    never give the same line on one machine, and the Windows line of a
    directory is never the other platforms' line of any directory. *)
Theorem get_npm_install_command_keeps_directory (w w' : World) (d d' : string) :
  str_contains d (get_npm_install_command w d) = true /\
  (get_npm_install_command w d = get_npm_install_command w d' -> d = d') /\
  (is_windows w = true -> is_windows w' = false ->
   get_npm_install_command w d <> get_npm_install_command w' d').
Proof.
  unfold get_npm_install_command. split_conj.
  - apply str_contains_true.
    destruct (is_windows w); eexists _, _; reflexivity.
  - destruct (is_windows w); intros H;
      apply append_inj_prefix, append_inj_suffix in H; exact H.
  - intros -> ->. discriminate.
Qed.

Lemma get_npm_install_command_keeps_directory_witness :
  get_npm_install_command (machine "Windows" 0 "err") "my app"
    <> get_npm_install_command (machine "Linux" 0 "err") "my app" /\
  str_contains "my app"
    (get_npm_install_command (machine "Windows" 0 "err") "my app") = true.
Proof.
  pose proof (get_npm_install_command_keeps_directory
                (machine "Windows" 0 "err") (machine "Linux" 0 "err")
                "my app" "my app") as (Hc & _ & Hne).
  split; [apply Hne; reflexivity | exact Hc].
Defined.

(** ** Installation advisories: one text per branch *)

(** X14. The make advisory names the installers of its platform: on Windows
    it mentions Chocolatey, Winget and Scoop, on macOS Homebrew and
    xcode-select, and on every platform it is a substantial message of more
    than fifty characters. *)
Theorem suggest_make_installation_contents (w : World) :
  (is_windows w = true ->
   forallb (fun n => str_contains n (suggest_make_installation w))
           ["Chocolatey"; "Winget"; "Scoop"] = true) /\
  (is_windows w = false -> is_macos w = true ->
   forallb (fun n => str_contains n (suggest_make_installation w))
           ["Homebrew"; "xcode-select"] = true) /\
  (50 < String.length (suggest_make_installation w))%nat.
Proof.
  unfold suggest_make_installation. split_conj.
  - intros ->. vm_compute. reflexivity.
  - intros -> ->. vm_compute. reflexivity.
  - destruct (is_windows w); [| destruct (is_macos w)];
      vm_compute; lia.
Qed.

Lemma suggest_make_installation_contents_witness :
  forallb (fun n => str_contains n (suggest_make_installation (machine "Darwin" 0 "err")))
          ["Homebrew"; "xcode-select"] = true.
Proof.
  exact (proj1 (proj2 (suggest_make_installation_contents
                         (machine "Darwin" 0 "err")))
               eq_refl eq_refl).
Defined.

(** X15. The make advisory tells the three branches apart: two machines get
    the same text exactly when both are Windows, or both are macOS, or both
    are neither. *)
Theorem suggest_make_installation_distinguishes (w w' : World) :
  suggest_make_installation w = suggest_make_installation w' <->
  is_windows w = is_windows w' /\
  (is_windows w = false -> is_macos w = is_macos w').
Proof.
  unfold suggest_make_installation.
  destruct (is_windows w), (is_windows w'), (is_macos w), (is_macos w');
    split;
    try (intros H; apply (f_equal String.length) in H; vm_compute in H;
         discriminate);
    try (intros [H1 H2]; try discriminate; specialize (H2 eq_refl);
         discriminate);
    try (intros _; split; [reflexivity | intros; try reflexivity; discriminate]);
    try reflexivity.
Qed.

(** X16. The uv advisory has only two variants: it depends on nothing but
    whether the machine is Windows, so macOS, Linux and every other
    platform share one text, the two texts differ, and both recommend
    [pip install uv] and are more than fifty characters long. *)
Theorem suggest_uv_installation_two_variants (w w' : World) :
  (suggest_uv_installation w = suggest_uv_installation w' <->
   is_windows w = is_windows w') /\
  str_contains "pip install uv" (suggest_uv_installation w) = true /\
  (50 < String.length (suggest_uv_installation w))%nat.
Proof.
  unfold suggest_uv_installation. split_conj.
  - destruct (is_windows w), (is_windows w'); split;
      try reflexivity; try discriminate;
      intros H; apply (f_equal String.length) in H; vm_compute in H;
      discriminate.
  - destruct (is_windows w); vm_compute; reflexivity.
  - destruct (is_windows w); vm_compute; lia.
Qed.

Lemma suggest_uv_installation_two_variants_witness :
  suggest_uv_installation (machine "Darwin" 0 "err")
    = suggest_uv_installation (machine "Linux" 0 "err").
Proof.
  apply (proj1 (suggest_uv_installation_two_variants
                  (machine "Darwin" 0 "err") (machine "Linux" 0 "err"))).
  reflexivity.
Defined.

(** ** One source of truth for the platform *)

Lemma detect_platform_eq_predicates (w w' : World) :
  detect_platform w = detect_platform w' ->
  is_windows w = is_windows w' /\
  (is_windows w = false -> is_macos w = is_macos w').
Proof.
  unfold detect_platform.
  destruct (is_windows w), (is_windows w'), (is_macos w), (is_macos w'),
    (is_linux w), (is_linux w'); intros H; split; congruence.
Qed.

(** X17. Every platform-dependent answer of the module is a function of the
    platform identity alone: two machines classified alike get the same
    shell invocation, the same npm install line and the same make and uv
    advisories, whatever else differs between them. *)
Theorem platform_identity_determines_answers (w w' : World) (c d : string) :
  detect_platform w = detect_platform w' ->
  get_shell_command w c = get_shell_command w' c /\
  get_npm_install_command w d = get_npm_install_command w' d /\
  suggest_make_installation w = suggest_make_installation w' /\
  suggest_uv_installation w = suggest_uv_installation w'.
Proof.
  intros H. destruct (detect_platform_eq_predicates w w' H) as [Hw Hm].
  unfold get_shell_command, get_npm_install_command, suggest_make_installation,
    suggest_uv_installation.
  rewrite <- Hw. destruct (is_windows w).
  - split_conj; reflexivity.
  - rewrite <- (Hm eq_refl). split_conj; reflexivity.
Qed.

Lemma platform_identity_determines_answers_witness :
  suggest_make_installation (machine "FreeBSD" 0 "err")
    = suggest_make_installation (read_only_machine "SunOS").
Proof.
  apply (platform_identity_determines_answers
           (machine "FreeBSD" 0 "err") (read_only_machine "SunOS")
           "ls" "frontend").
  reflexivity.
Defined.

(** [get_uv_command] finds uv exactly when [check_command_exists] does. *)
Lemma get_uv_command_check_command_exists (w : World) :
  is_Some (get_uv_command w) <-> check_command_exists w "uv" = true.
Proof. symmetry. apply check_command_exists_true. Qed.
